(** * The in-memory server extension example, embedded in Rocq

    A shallow embedding of [example_extension/example.py]: the table of
    accounts, the three credential checks of [InMemoryExtension], the
    configuration lookup, and the properties of the behavioural contract.

    Python dictionaries keyed by user name are [gmap string _]; the inner
    dictionaries, which the code only reads at a fixed set of keys, are
    records with one optional field per key ([None] when the key is absent).
    Exceptions are explicit: every callback returns an [outcome]. *)

From Stdlib Require Import Ascii.
From stdpp Require Import base option strings list gmap.

(** ** The fragment of the Python runtime the module relies on *)

Module Py.

(** The exceptions that can travel through the extension. *)
Inductive Exception : Type :=
| ExternalAuthenticationException (message : string)
| AssertionError (message : string)
| KeyError (key : string)
| ForeignException (description : string).

(** A call either returns a value or raises. *)
Inductive outcome (A : Type) : Type :=
| Return (value : A)
| Raise (e : Exception).
Arguments Return {A} value.
Arguments Raise {A} e.

(** Sequencing: an exception raised by [m] skips the rest. *)
#[export] Instance outcome_bind : MBind outcome := fun A B k m =>
  match m with
  | Return a => k a
  | Raise e => Raise e
  end.

(** [try: body / except: handler / else: orelse]: the bare [except]
    catches whatever [body] raises; [orelse] runs outside the guarded
    region, on the value [body] produced. *)
Definition try_except_else {A B : Type}
    (body : outcome A) (handler : outcome B) (orelse : A -> outcome B) : outcome B :=
  match body with
  | Raise _ => handler
  | Return a => orelse a
  end.

(** [try: body / except KeyError: handler]. *)
Definition try_except_KeyError {A : Type}
    (body : outcome A) (handler : outcome A) : outcome A :=
  match body with
  | Raise (KeyError _) => handler
  | other => other
  end.

(** [k in d] on a dictionary keyed by strings. *)
Definition contains {V : Type} (d : gmap string V) (k : string) : bool :=
  match d !! k with
  | Some _ => true
  | None => false
  end.

(** [d[k]] on a dictionary keyed by strings. *)
Definition getitem {V : Type} (d : gmap string V) (k : string) : outcome V :=
  match d !! k with
  | Some v => Return v
  | None => Raise (KeyError k)
  end.

(** [d[k]] on a dictionary held as a record: [slot] is the field of key [k]. *)
Definition getkey {V : Type} (k : string) (slot : option V) : outcome V :=
  match slot with
  | Some v => Return v
  | None => Raise (KeyError k)
  end.

(** Truth value testing, as [if x] and [not x] perform it. *)
Class Truth (A : Type) := truth : A -> bool.

#[export] Instance bool_truth : Truth bool := fun b => b.
#[export] Instance str_truth : Truth string :=
  fun s => match s with EmptyString => false | String _ _ => true end.
#[export] Instance list_truth {A : Type} : Truth (list A) :=
  fun l => match l with [] => false | _ :: _ => true end.
(** [None] is false; anything else answers for itself. *)
#[export] Instance option_truth {A : Type} `{Truth A} : Truth (option A) :=
  fun o => match o with None => false | Some a => truth a end.

(** ['k' in d and d['k']] on a record-held dictionary. *)
Definition key_is_set (slot : option bool) : bool :=
  match slot with
  | Some b => truth b
  | None => false
  end.

(** The double quote character, for [%]-formatted messages. *)
Definition dquote : string := String "034"%char EmptyString.

End Py.

Import Py.

(** ** Objects supplied by the host *)

(** The subject of a certificate: only its common name is read. Reading
    the attribute runs code of the host, which gives the name, or [None]
    when the subject has none, or raises. *)
Module X509Name.
Record t : Type := mk { commonName : outcome (option string) }.
End X509Name.

(** A client certificate: [get_subject] is what the call [get_subject()]
    does, which may be to raise. *)
Module X509.
Record t : Type := mk { get_subject : outcome X509Name.t }.
End X509.

Module PasswordCredentials.
Record t : Type := mk { username : string; password : string }.
End PasswordCredentials.

Module SSHKeyCredentials.
Record t : Type := mk { username : string; key_data : option string }.
End SSHKeyCredentials.

Module SSLCertificateCredentials.
Record t : Type := mk { username : string; certificate : option X509.t }.
End SSLCertificateCredentials.

(** A credentials object, by the interface it provides. [OtherCredentials]
    stands for an object providing none of the three interfaces. *)
Module Credentials.
Inductive t : Type :=
| IPasswordCredentials (c : PasswordCredentials.t)
| ISSHKeyCredentials (c : SSHKeyCredentials.t)
| ISSLCertificateCredentials (c : SSLCertificateCredentials.t)
| OtherCredentials (username : string).

Definition username (credentials : t) : string :=
  match credentials with
  | IPasswordCredentials c => PasswordCredentials.username c
  | ISSHKeyCredentials c => SSHKeyCredentials.username c
  | ISSLCertificateCredentials c => SSLCertificateCredentials.username c
  | OtherCredentials u => u
  end.
End Credentials.
Import Credentials.

(** What a validation callback hands back: [True], [False] or [None]. *)
Inductive Verdict : Type :=
| Accepted       (* True *)
| Rejected       (* False *)
| Indeterminate. (* None *)

Definition verdict_of_bool (b : bool) : Verdict :=
  if b then Accepted else Rejected.

(** ** The account table *)

(** The ['configuration'] dictionary of an account. *)
Module Configuration.
Record t : Type := mk {
  create_home_folder : option bool;
  home_folder_path : option string
}.
End Configuration.

(** The dictionary stored for one user. The key ['enabled_credentials']
    of the sample table is never read and is left out. *)
Module Account.
Record t : Type := mk {
  password : option string;
  ssh_keys : option (list string);
  allow_certificate : option bool;
  denied : option bool;
  internal_error : option bool;
  configuration : option Configuration.t
}.

Definition empty : t := mk None None None None None None.

Definition with_ssh_keys (keys : list string) (a : t) : t :=
  mk (password a) (Some keys) (allow_certificate a)
     (denied a) (internal_error a) (configuration a).
End Account.

Definition SSH_PUB1 : string :=
  "ssh-rsa " +:+
  "AAAAB3NzaC1yc2EAAAABJQAAAIEAhXRMOofqtrJpleleYXnOCRm5X1l2EeIpIFIQPYu" +:+
  "HI9pvGsTlk8KrVw+Lh6Jj1h58EbL9uPAr/F+Cj2MkY/ScgpXinQTggZp+PqEes8Optv6YcMTCp5p" +:+
  "NbKmmw61pEujU334pfP6LGLRdHRacq3vYK28klJDmos6tDccYmjRwEHM= " +:+
  "key-comments".

Definition user1 : Account.t :=
  Account.mk (Some "password1") (Some [SSH_PUB1; SSH_PUB1]) (Some false)
    None None (Some (Configuration.mk (Some false) (Some "/tmp"))).

Definition user2 : Account.t :=
  Account.mk (Some EmptyString) (Some []) (Some true)
    None None (Some (Configuration.mk (Some true) (Some "/tmp/user2"))).

Definition user3 : Account.t :=
  Account.mk None None None (Some true) None None.

Definition user4 : Account.t :=
  Account.mk None None None None (Some true) None.

Definition USERS : gmap string Account.t :=
  <["user1" := user1]> (<["user2" := user2]> (<["user3" := user3]>
    (<["user4" := user4]> ∅))).

(** ** The avatar *)

Module InMemoryExternalAvatar.
Record t : Type := __init__ {
  _name : string;
  _configuration : Configuration.t
}.

Definition name (self : t) : string := _name self.

Definition create_home_folder (self : t) : outcome bool :=
  getkey "create_home_folder"
    (Configuration.create_home_folder (_configuration self)).

Definition home_folder_path (self : t) : outcome string :=
  getkey "home_folder_path"
    (Configuration.home_folder_path (_configuration self)).
End InMemoryExternalAvatar.

(** ** The extension *)

Module InMemoryExtension.

Record t : Type := __init__ { _users_database : gmap string Account.t }.

Section Methods.

(** [is_key_authorized] is imported from the host
    ([chevah.server.extensions]); the extension only calls it. *)
Variable is_key_authorized : SSHKeyCredentials.t -> list string -> bool.

Definition _validatePasswordCredentials
    (self : t) (credentials : PasswordCredentials.t) : outcome Verdict :=
  let username := PasswordCredentials.username credentials in
  let password := PasswordCredentials.password credentials in
  if negb (truth password) then Return Indeterminate else
  user_data ← getitem (_users_database self) username;
  stored ← getkey "password" (Account.password user_data);
  if negb (truth stored) then Return Rejected else
  if bool_decide (password = stored) then Return Accepted
  else Return Rejected.

Definition _validateSSHCredentials
    (self : t) (credentials : SSHKeyCredentials.t) : outcome Verdict :=
  let username := SSHKeyCredentials.username credentials in
  if negb (truth (SSHKeyCredentials.key_data credentials))
  then Return Rejected else
  user_data ← getitem (_users_database self) username;
  keys ← getkey "ssh_keys" (Account.ssh_keys user_data);
  if negb (truth keys) then Return Rejected else
  Return (verdict_of_bool (is_key_authorized credentials keys)).

Definition _validateSSLCredentials
    (self : t) (credentials : SSLCertificateCredentials.t) : outcome Verdict :=
  let username := SSLCertificateCredentials.username credentials in
  (* A certificate object is always true: [not credentials.certificate]
     holds only when there is none. *)
  match SSLCertificateCredentials.certificate credentials with
  | None => Return Rejected
  | Some certificate =>
      user_data ← getitem (_users_database self) username;
      allow ← getkey "allow_certificate" (Account.allow_certificate user_data);
      if negb (truth allow) then Return Rejected else
      try_except_else (X509.get_subject certificate)
        (Return Rejected)
        (fun subject =>
           common_name ← X509Name.commonName subject;
           if bool_decide (common_name = Some username)
           then Return Accepted
           else Return Rejected)
  end.

Definition validateCredentials
    (self : t) (credentials : Credentials.t) : outcome Verdict :=
  let username := Credentials.username credentials in
  if negb (contains (_users_database self) username) then Return Rejected else
  user_data ← getitem (_users_database self) username;
  if key_is_set (Account.denied user_data) then
    Raise (ExternalAuthenticationException
             ("Acount " +:+ dquote +:+ username +:+ dquote +:+ " is denied."))
  else
  if key_is_set (Account.internal_error user_data) then
    Raise (AssertionError
             ("Internal server error for " +:+ dquote +:+ username +:+ dquote +:+ "."))
  else
  match credentials with
  | IPasswordCredentials c => _validatePasswordCredentials self c
  | ISSHKeyCredentials c => _validateSSHCredentials self c
  | ISSLCertificateCredentials c => _validateSSLCredentials self c
  | OtherCredentials _ => Return Rejected
  end.

Definition getAccountConfiguration
    (self : t) (credentials : Credentials.t)
    : outcome (option InMemoryExternalAvatar.t) :=
  let username := Credentials.username credentials in
  try_except_KeyError
    (user_data ← getitem (_users_database self) username;
     configuration ← getkey "configuration" (Account.configuration user_data);
     Return (Some (InMemoryExternalAvatar.__init__ username configuration)))
    (Return None).

End Methods.

(** The module-level [extension] object. *)
Definition extension : t := __init__ USERS.

End InMemoryExtension.

Import InMemoryExtension.

(** ** The messages of the two faults *)

Definition denied_message (username : string) : string :=
  "Acount " +:+ dquote +:+ username +:+ dquote +:+ " is denied.".

Definition internal_error_message (username : string) : string :=
  "Internal server error for " +:+ dquote +:+ username +:+ dquote +:+ ".".

(** The two faults of the contract, by the names the contract gives them. *)
Definition AccountDenied (username : string) : Exception :=
  ExternalAuthenticationException (denied_message username).

Definition InternalFault (username : string) : Exception :=
  AssertionError (internal_error_message username).

(** The checks that depend on the kind of the credentials: the last step
    of [validateCredentials]. *)
Definition kind_specific_check
    (is_key_authorized : SSHKeyCredentials.t -> list string -> bool)
    (self : InMemoryExtension.t) (credentials : Credentials.t) : outcome Verdict :=
  match credentials with
  | IPasswordCredentials c => _validatePasswordCredentials self c
  | ISSHKeyCredentials c => _validateSSHCredentials is_key_authorized self c
  | ISSLCertificateCredentials c => _validateSSLCredentials self c
  | OtherCredentials _ => Return Rejected
  end.

(** The entry of the account that the check for this kind of credentials
    reads with a plain subscript. *)
Definition checked_entry_present
    (credentials : Credentials.t) (user_data : Account.t) : Prop :=
  match credentials with
  | IPasswordCredentials _ => is_Some (Account.password user_data)
  | ISSHKeyCredentials _ => is_Some (Account.ssh_keys user_data)
  | ISSLCertificateCredentials _ => is_Some (Account.allow_certificate user_data)
  | OtherCredentials _ => True
  end.

(** The certificate check gets as far as reading [subject.commonName],
    in the [else] suite of its [try], and the read raises [e]. *)
Definition common_name_read_raises
    (credentials : Credentials.t) (user_data : Account.t) (e : Exception) : Prop :=
  match credentials with
  | ISSLCertificateCredentials c =>
      exists certificate subject,
        SSLCertificateCredentials.certificate c = Some certificate
        /\ Account.allow_certificate user_data = Some true
        /\ X509.get_subject certificate = Return subject
        /\ X509Name.commonName subject = Raise e
  | _ => False
  end.

(** ** The host's key check *)

(** Modelled from the spec: the body of [is_key_authorized] is the host's
    and is not part of this repository. The supplied key is authorized
    when it matches, by the host's test of one supplied key against one
    stored public key, any of the stored keys. *)
Definition any_key_authorized
    (key_matches : SSHKeyCredentials.t -> string -> bool)
    (credentials : SSHKeyCredentials.t) (keys : list string) : bool :=
  existsb (key_matches credentials) keys.

(** ** Sample inputs *)

(** A key test that compares the supplied key data with the stored line,
    and the host check built on it. *)
Definition same_key (credentials : SSHKeyCredentials.t) (key : string) : bool :=
  bool_decide (SSHKeyCredentials.key_data credentials = Some key).

Definition listed_key : SSHKeyCredentials.t -> list string -> bool :=
  any_key_authorized same_key.

(** The sample table with [user3] no longer denied. *)
Definition user3_reopened : Account.t :=
  Account.mk None None None (Some false) None None.

Definition reopened : InMemoryExtension.t :=
  InMemoryExtension.__init__ (<["user3" := user3_reopened]> USERS).

(** The sample table with one more account, both denied and failing. *)
Definition user5 : Account.t :=
  Account.mk None None None (Some true) (Some true) None.

Definition with_user5 : InMemoryExtension.t :=
  InMemoryExtension.__init__ (<["user5" := user5]> USERS).

Definition certificate_of (common_name : string) : X509.t :=
  X509.mk (Return (X509Name.mk (Return (Some common_name)))).

(** A certificate whose subject is obtained but whose common name cannot
    be read. *)
Definition unreadable_certificate : X509.t :=
  X509.mk (Return (X509Name.mk (Raise (ForeignException "commonName failed")))).

Definition broken_certificate : X509.t :=
  X509.mk (Raise (ForeignException "get_subject failed")).

(** The sample table with one more account, whose configuration
    dictionary is empty. *)
Definition user6 : Account.t :=
  Account.mk None None None None None (Some (Configuration.mk None None)).

Definition with_user6 : InMemoryExtension.t :=
  InMemoryExtension.__init__ (<["user6" := user6]> USERS).

(** ** Comparing accounts *)

(** Two accounts hold the same thing under the entry that the check for
    this kind of credentials reads. *)
Definition same_checked_entry
    (credentials : Credentials.t) (a a' : Account.t) : Prop :=
  match credentials with
  | IPasswordCredentials _ => Account.password a = Account.password a'
  | ISSHKeyCredentials _ => Account.ssh_keys a = Account.ssh_keys a'
  | ISSLCertificateCredentials _ =>
      Account.allow_certificate a = Account.allow_certificate a'
  | OtherCredentials _ => True
  end.

(** ** Basic facts about the runtime fragment *)

Lemma truth_str_false (s : string) : truth s = false <-> s = EmptyString.
Proof. destruct s; cbv; split; congruence. Qed.

Lemma truth_str_true (s : string) : truth s = true <-> s <> EmptyString.
Proof. destruct s; cbv; split; congruence. Qed.

Lemma key_is_set_true (slot : option bool) :
  key_is_set slot = true <-> slot = Some true.
Proof. destruct slot as [[]|]; cbv; split; congruence. Qed.

(** ** How the validator unfolds *)

Section Unfolding.
Variable is_key_authorized : SSHKeyCredentials.t -> list string -> bool.
Variable self : InMemoryExtension.t.

Local Abbreviation validate := (validateCredentials is_key_authorized self).
Local Abbreviation db := (_users_database self).

Lemma validate_unknown (credentials : Credentials.t) :
  db !! Credentials.username credentials = None ->
  validate credentials = Return Rejected.
Proof.
  intros E. unfold validateCredentials, contains. by rewrite E.
Qed.

Lemma validate_denied (credentials : Credentials.t) (user_data : Account.t) :
  db !! Credentials.username credentials = Some user_data ->
  key_is_set (Account.denied user_data) = true ->
  validate credentials = Raise (AccountDenied (Credentials.username credentials)).
Proof.
  intros E D. unfold validateCredentials, contains, getitem.
  rewrite E. simpl. by rewrite D.
Qed.

Lemma validate_internal_error (credentials : Credentials.t) (user_data : Account.t) :
  db !! Credentials.username credentials = Some user_data ->
  key_is_set (Account.denied user_data) = false ->
  key_is_set (Account.internal_error user_data) = true ->
  validate credentials = Raise (InternalFault (Credentials.username credentials)).
Proof.
  intros E D I. unfold validateCredentials, contains, getitem.
  rewrite E. simpl. by rewrite D, I.
Qed.

Lemma validate_dispatch (credentials : Credentials.t) (user_data : Account.t) :
  db !! Credentials.username credentials = Some user_data ->
  key_is_set (Account.denied user_data) = false ->
  key_is_set (Account.internal_error user_data) = false ->
  validate credentials = kind_specific_check is_key_authorized self credentials.
Proof.
  intros E D I. unfold validateCredentials, contains, getitem.
  rewrite E. simpl. by rewrite D, I.
Qed.

Lemma password_check (c : PasswordCredentials.t) (user_data : Account.t) :
  db !! PasswordCredentials.username c = Some user_data ->
  _validatePasswordCredentials self c =
    if negb (truth (PasswordCredentials.password c)) then Return Indeterminate else
    stored ← getkey "password" (Account.password user_data);
    if negb (truth stored) then Return Rejected else
    Return (verdict_of_bool (bool_decide (PasswordCredentials.password c = stored))).
Proof.
  intros E. unfold _validatePasswordCredentials, getitem. rewrite E. simpl.
  destruct (truth (PasswordCredentials.password c)); [|done]. simpl.
  destruct (Account.password user_data) as [stored|]; [|done]. simpl.
  destruct (truth stored); [|done]. simpl. by case_bool_decide.
Qed.

Lemma ssh_check (c : SSHKeyCredentials.t) (user_data : Account.t) :
  db !! SSHKeyCredentials.username c = Some user_data ->
  _validateSSHCredentials is_key_authorized self c =
    if negb (truth (SSHKeyCredentials.key_data c)) then Return Rejected else
    keys ← getkey "ssh_keys" (Account.ssh_keys user_data);
    if negb (truth keys) then Return Rejected else
    Return (verdict_of_bool (is_key_authorized c keys)).
Proof.
  intros E. unfold _validateSSHCredentials, getitem. by rewrite E.
Qed.

Lemma ssl_check (c : SSLCertificateCredentials.t) (user_data : Account.t)
    (certificate : X509.t) :
  db !! SSLCertificateCredentials.username c = Some user_data ->
  SSLCertificateCredentials.certificate c = Some certificate ->
  _validateSSLCredentials self c =
    allow ← getkey "allow_certificate" (Account.allow_certificate user_data);
    if negb (truth allow) then Return Rejected else
    match X509.get_subject certificate with
    | Raise _ => Return Rejected
    | Return subject =>
        common_name ← X509Name.commonName subject;
        Return (verdict_of_bool
                  (bool_decide (common_name
                                = Some (SSLCertificateCredentials.username c))))
    end.
Proof.
  intros E C. unfold _validateSSLCredentials, getitem. rewrite C, E. simpl.
  destruct (Account.allow_certificate user_data) as [allow|]; [|done]. simpl.
  destruct (truth allow); [|done]. simpl.
  destruct (X509.get_subject certificate) as [subject|e]; [|done]. simpl.
  destruct (X509Name.commonName subject) as [common_name|e]; [|done]. simpl.
  by case_bool_decide.
Qed.

Lemma kind_specific_check_returns
    (credentials : Credentials.t) (user_data : Account.t) :
  db !! Credentials.username credentials = Some user_data ->
  checked_entry_present credentials user_data ->
  (forall e, ~ common_name_read_raises credentials user_data e) ->
  exists verdict, kind_specific_check is_key_authorized self credentials = Return verdict.
Proof.
  intros E P N. destruct credentials as [c|c|c|u]; simpl in *.
  - rewrite (password_check c user_data E). destruct P as [stored ->]. simpl.
    destruct (truth (PasswordCredentials.password c)); simpl; [|by eexists].
    destruct (truth stored); simpl; by eexists.
  - rewrite (ssh_check c user_data E). destruct P as [keys ->]. simpl.
    destruct (truth (SSHKeyCredentials.key_data c)); simpl; [|by eexists].
    destruct (truth keys); simpl; by eexists.
  - destruct (SSLCertificateCredentials.certificate c) as [certificate|] eqn:C.
    + rewrite (ssl_check c user_data certificate E C). destruct P as [allow A].
      rewrite A. simpl. destruct allow; simpl; [|by eexists].
      destruct (X509.get_subject certificate) as [subject|] eqn:G; [|by eexists].
      destruct (X509Name.commonName subject) as [common_name|e] eqn:R;
        [by eexists|].
      destruct (N e). by exists certificate, subject.
    + unfold _validateSSLCredentials. rewrite C. by eexists.
  - by eexists.
Qed.

(** Beyond the two flags a fault is either the [KeyError] of a missing
    entry or what the read of the common name raised. *)
Lemma kind_specific_check_raises
    (credentials : Credentials.t) (user_data : Account.t) (e : Exception) :
  db !! Credentials.username credentials = Some user_data ->
  kind_specific_check is_key_authorized self credentials = Raise e ->
  ((exists k, e = KeyError k) /\ ~ checked_entry_present credentials user_data)
  \/ common_name_read_raises credentials user_data e.
Proof.
  intros E. destruct credentials as [c|c|c|u]; simpl in *.
  - rewrite (password_check c user_data E).
    destruct (truth (PasswordCredentials.password c)); simpl; [|done].
    destruct (Account.password user_data) as [stored|] eqn:S; simpl.
    + by destruct (truth stored).
    + intros [= <-]. left. split; [by eexists|]. by intros [? ?].
  - rewrite (ssh_check c user_data E).
    destruct (truth (SSHKeyCredentials.key_data c)); simpl; [|done].
    destruct (Account.ssh_keys user_data) as [keys|] eqn:S; simpl.
    + by destruct (truth keys).
    + intros [= <-]. left. split; [by eexists|]. by intros [? ?].
  - destruct (SSLCertificateCredentials.certificate c) as [certificate|] eqn:C.
    + rewrite (ssl_check c user_data certificate E C).
      destruct (Account.allow_certificate user_data) as [allow|] eqn:S; simpl.
      * destruct allow; simpl; [|done].
        destruct (X509.get_subject certificate) as [subject|] eqn:G; [|done].
        destruct (X509Name.commonName subject) as [common_name|e'] eqn:R;
          [done|].
        simpl. intros [= <-]. right. by exists certificate, subject.
      * intros [= <-]. left. split; [by eexists|]. by intros [? ?].
    + unfold _validateSSLCredentials. by rewrite C.
  - done.
Qed.

(** When the read of the common name raises, the certificate check raises
    the same exception. *)
Lemma kind_specific_check_read_raises
    (credentials : Credentials.t) (user_data : Account.t) (e : Exception) :
  db !! Credentials.username credentials = Some user_data ->
  common_name_read_raises credentials user_data e ->
  kind_specific_check is_key_authorized self credentials = Raise e.
Proof.
  intros E. destruct credentials as [c|c|c|u]; simpl; try done.
  intros (certificate & subject & C & A & G & R).
  by rewrite (ssl_check c user_data certificate E C), A, G, R.
Qed.

End Unfolding.

Section KeyCheck.
Variable key_matches : SSHKeyCredentials.t -> string -> bool.

Lemma any_key_authorized_exists (c : SSHKeyCredentials.t) (keys : list string) :
  any_key_authorized key_matches c keys = true <->
  exists key, key ∈ keys /\ key_matches c key = true.
Proof.
  unfold any_key_authorized. rewrite existsb_exists.
  split; intros (key & Hin & Hm); exists key; split; try done;
    by apply list_elem_of_In.
Qed.

Lemma any_key_authorized_app (c : SSHKeyCredentials.t) (keys more : list string) :
  any_key_authorized key_matches c (keys ++ more) =
  any_key_authorized key_matches c keys || any_key_authorized key_matches c more.
Proof. unfold any_key_authorized. apply existsb_app. Qed.

(** A key that the list already holds adds nothing to the check. *)
Lemma any_key_authorized_duplicate
    (c : SSHKeyCredentials.t) (keys : list string) (key : string) :
  key ∈ keys ->
  any_key_authorized key_matches c (keys ++ [key])
  = any_key_authorized key_matches c keys.
Proof.
  intros Hin. rewrite any_key_authorized_app.
  unfold any_key_authorized at 2. simpl. rewrite orb_false_r.
  destruct (key_matches c key) eqn:M; [|by rewrite orb_false_r].
  rewrite orb_true_r. symmetry. apply any_key_authorized_exists. eauto.
Qed.

End KeyCheck.

(** ** The behavioural contract of the credential validator *)

Section Validator.
Variable is_key_authorized : SSHKeyCredentials.t -> list string -> bool.
Variable self : InMemoryExtension.t.

Local Abbreviation validate := (validateCredentials is_key_authorized self).
Local Abbreviation db := (_users_database self).

(** C7. A credential of any kind, with any payload, whose user name is
    not a key of the account table is answered with the verdict
    Rejected; nothing is raised. *)
Theorem unknown_username_rejected (credentials : Credentials.t) :
  db !! Credentials.username credentials = None ->
  validate credentials = Return Rejected.
Proof. apply validate_unknown. Qed.

(** C9. When the account has both [denied] and [internal_error] set, the
    fault raised is the one of the denied account
    ([ExternalAuthenticationException]), not [AssertionError]: the
    denied test comes first. *)
Theorem denied_before_internal_error
    (credentials : Credentials.t) (user_data : Account.t) :
  db !! Credentials.username credentials = Some user_data ->
  Account.denied user_data = Some true ->
  Account.internal_error user_data = Some true ->
  validate credentials = Raise (AccountDenied (Credentials.username credentials))
  /\ validate credentials <> Raise (InternalFault (Credentials.username credentials)).
Proof.
  intros E D _.
  assert (validate credentials
          = Raise (AccountDenied (Credentials.username credentials))) as ->.
  { eapply validate_denied; [done|]. by apply key_is_set_true. }
  split; [done|]. unfold AccountDenied, InternalFault. congruence.
Qed.

(** C2. For a password credential of a known account that is neither
    denied nor failing: an empty supplied password gives Indeterminate;
    otherwise an empty stored password gives Rejected; otherwise the
    verdict is Accepted exactly when the two passwords are the same
    string, and Rejected otherwise. *)
Theorem password_verdict (c : PasswordCredentials.t) (user_data : Account.t) :
  db !! PasswordCredentials.username c = Some user_data ->
  key_is_set (Account.denied user_data) = false ->
  key_is_set (Account.internal_error user_data) = false ->
  (PasswordCredentials.password c = EmptyString ->
     validate (IPasswordCredentials c) = Return Indeterminate)
  /\ (forall stored : string,
        Account.password user_data = Some stored ->
        PasswordCredentials.password c <> EmptyString ->
        (stored = EmptyString ->
           validate (IPasswordCredentials c) = Return Rejected)
        /\ (stored <> EmptyString ->
              (validate (IPasswordCredentials c) = Return Accepted
                 <-> PasswordCredentials.password c = stored)
              /\ (validate (IPasswordCredentials c) = Return Rejected
                    <-> PasswordCredentials.password c <> stored))).
Proof.
  intros E D I.
  rewrite (validate_dispatch _ _ (IPasswordCredentials c) user_data E D I).
  simpl. rewrite (password_check _ c user_data E).
  split.
  - intros Hp. apply truth_str_false in Hp. by rewrite Hp.
  - intros stored Hs Hp. apply truth_str_true in Hp. rewrite Hp, Hs. simpl.
    split.
    + intros Hst. apply truth_str_false in Hst. by rewrite Hst.
    + intros Hst. apply truth_str_true in Hst. rewrite Hst. simpl.
      case_bool_decide; simpl; split; split; congruence.
Qed.

(** C3 (amended). For a certificate credential of a known account that is
    neither denied nor failing: no certificate gives Rejected; otherwise,
    with [allow_certificate] false, Rejected whatever the certificate
    says; otherwise the verdict is Accepted exactly when the subject is
    obtained and its common name is read and is the user name, and
    Rejected exactly when [get_subject] raises or the common name is read
    and is not the user name. When the read of the common name itself
    raises there is no verdict: that exception leaves the validator. *)
Theorem certificate_verdict
    (c : SSLCertificateCredentials.t) (user_data : Account.t) :
  db !! SSLCertificateCredentials.username c = Some user_data ->
  key_is_set (Account.denied user_data) = false ->
  key_is_set (Account.internal_error user_data) = false ->
  (SSLCertificateCredentials.certificate c = None ->
     validate (ISSLCertificateCredentials c) = Return Rejected)
  /\ (forall certificate : X509.t,
        SSLCertificateCredentials.certificate c = Some certificate ->
        (Account.allow_certificate user_data = Some false ->
           validate (ISSLCertificateCredentials c) = Return Rejected)
        /\ (Account.allow_certificate user_data = Some true ->
              (validate (ISSLCertificateCredentials c) = Return Accepted
                 <-> exists subject,
                       X509.get_subject certificate = Return subject
                       /\ X509Name.commonName subject
                          = Return (Some (SSLCertificateCredentials.username c)))
              /\ (validate (ISSLCertificateCredentials c) = Return Rejected
                    <-> (exists e, X509.get_subject certificate = Raise e)
                        \/ (exists subject common_name,
                              X509.get_subject certificate = Return subject
                              /\ X509Name.commonName subject = Return common_name
                              /\ common_name
                                 <> Some (SSLCertificateCredentials.username c)))
              /\ (forall e : Exception,
                    validate (ISSLCertificateCredentials c) = Raise e
                    <-> exists subject,
                          X509.get_subject certificate = Return subject
                          /\ X509Name.commonName subject = Raise e))).
Proof.
  intros E D I.
  rewrite (validate_dispatch _ _ (ISSLCertificateCredentials c) user_data E D I).
  simpl. split.
  - intros Hc. unfold _validateSSLCredentials. by rewrite Hc.
  - intros certificate Hc. rewrite (ssl_check _ c user_data certificate E Hc).
    split; intros ->; simpl; [done|].
    destruct (X509.get_subject certificate) as [subject|e0].
    + destruct (X509Name.commonName subject) as [common_name|e1] eqn:R; simpl.
      * case_bool_decide as Hcn; simpl.
        -- subst common_name. split; [|split].
           ++ split; [|done]. intros _. by exists subject.
           ++ split; [done|].
              intros [[e [=]]|(s0 & cn & [= <-] & Hs & Hne)]. congruence.
           ++ intros e. split; [done|]. intros (s0 & [= <-] & Hs). congruence.
        -- split; [|split].
           ++ split; [done|]. intros (s0 & [= <-] & Hs). congruence.
           ++ split; [|done]. intros _. right. by exists subject, common_name.
           ++ intros e. split; [done|]. intros (s0 & [= <-] & Hs). congruence.
      * split; [|split].
        -- split; [done|]. intros (s0 & [= <-] & Hs). congruence.
        -- split; [done|].
           intros [[e [=]]|(s0 & cn & [= <-] & Hs & _)]. congruence.
        -- intros e. split.
           ++ intros [= <-]. by exists subject.
           ++ intros (s0 & [= <-] & Hs). congruence.
    + split; [|split].
      * split; [done|]. by intros (s0 & [=] & _).
      * split; [|done]. intros _. left. by exists e0.
      * intros e. split; [done|]. by intros (s0 & [=] & _).
Qed.

(** C4 (amended). Once a certificate credential has reached the
    extraction of the subject (certificate supplied, known account,
    neither denied nor failing, certificates allowed), whatever the call
    to [get_subject] raises is caught: the validator returns Rejected and
    raises nothing. The read of the common name on the subject so
    obtained is outside the guarded call: what it raises is not caught
    and leaves the validator. *)
Theorem subject_fault_swallowed
    (c : SSLCertificateCredentials.t) (user_data : Account.t)
    (certificate : X509.t) :
  db !! SSLCertificateCredentials.username c = Some user_data ->
  key_is_set (Account.denied user_data) = false ->
  key_is_set (Account.internal_error user_data) = false ->
  SSLCertificateCredentials.certificate c = Some certificate ->
  Account.allow_certificate user_data = Some true ->
  (forall e : Exception,
     X509.get_subject certificate = Raise e ->
     validate (ISSLCertificateCredentials c) = Return Rejected)
  /\ (forall (subject : X509Name.t) (e : Exception),
        X509.get_subject certificate = Return subject ->
        X509Name.commonName subject = Raise e ->
        validate (ISSLCertificateCredentials c) = Raise e).
Proof.
  intros E D I Hc Ha.
  rewrite (validate_dispatch _ _ (ISSLCertificateCredentials c) user_data E D I).
  simpl. rewrite (ssl_check _ c user_data certificate E Hc), Ha. simpl.
  split.
  - by intros e ->.
  - by intros subject e -> ->.
Qed.

(** C5. For an SSH key credential of a known account that is neither
    denied nor failing: no key material gives Rejected; otherwise an
    empty list of stored keys gives Rejected; otherwise the verdict is
    Accepted exactly when the host's key check, given the credential and
    the stored keys, answers that the supplied key matches one of them,
    and Rejected otherwise. *)
Theorem ssh_key_verdict (c : SSHKeyCredentials.t) (user_data : Account.t) :
  db !! SSHKeyCredentials.username c = Some user_data ->
  key_is_set (Account.denied user_data) = false ->
  key_is_set (Account.internal_error user_data) = false ->
  (truth (SSHKeyCredentials.key_data c) = false ->
     validate (ISSHKeyCredentials c) = Return Rejected)
  /\ (forall keys : list string,
        Account.ssh_keys user_data = Some keys ->
        truth (SSHKeyCredentials.key_data c) = true ->
        (keys = [] -> validate (ISSHKeyCredentials c) = Return Rejected)
        /\ (keys <> [] ->
              (validate (ISSHKeyCredentials c) = Return Accepted
                 <-> is_key_authorized c keys = true)
              /\ (validate (ISSHKeyCredentials c) = Return Rejected
                    <-> is_key_authorized c keys = false))).
Proof.
  intros E D I.
  rewrite (validate_dispatch _ _ (ISSHKeyCredentials c) user_data E D I).
  simpl. rewrite (ssh_check _ _ c user_data E). split.
  - by intros ->.
  - intros keys -> ->. simpl. split.
    + by intros ->.
    + intros Hne. destruct keys as [|k keys']; [done|].
      change (truth (k :: keys')) with true. simpl negb. cbv iota.
      destruct (is_key_authorized c (k :: keys')); simpl;
        split; split; congruence.
Qed.

(** C1 (amended). For a credential of any kind whose user name is in the
    table: a denied account raises the denied fault and, failing that,
    an account with [internal_error] raises the internal fault, in both
    cases whatever the kind, the payload and the rest of the account
    are, so before any check of the kind runs. Two other faults can leave
    the validator: the [KeyError] of a check that reads an entry the
    account does not have, and whatever the read of the common name of a
    certificate raises. When the account carries the entry that the check
    of the kind reads, the validator raises exactly when a flag is set or
    that read raises, and otherwise returns a verdict. A user name
    outside the table gets the verdict Rejected. *)
Theorem fault_boundary (credentials : Credentials.t) :
  (db !! Credentials.username credentials = None ->
     validate credentials = Return Rejected)
  /\ (forall user_data : Account.t,
        db !! Credentials.username credentials = Some user_data ->
        (key_is_set (Account.denied user_data) = true ->
           validate credentials
             = Raise (AccountDenied (Credentials.username credentials)))
        /\ (key_is_set (Account.denied user_data) = false ->
            key_is_set (Account.internal_error user_data) = true ->
              validate credentials
                = Raise (InternalFault (Credentials.username credentials)))
        /\ (key_is_set (Account.denied user_data) = false ->
            key_is_set (Account.internal_error user_data) = false ->
            forall e : Exception,
              common_name_read_raises credentials user_data e ->
              validate credentials = Raise e)
        /\ (checked_entry_present credentials user_data ->
              (key_is_set (Account.denied user_data) = false ->
               key_is_set (Account.internal_error user_data) = false ->
               (forall e, ~ common_name_read_raises credentials user_data e) ->
                 exists verdict, validate credentials = Return verdict)
              /\ ((exists e, validate credentials = Raise e)
                    <-> key_is_set (Account.denied user_data) = true
                        \/ key_is_set (Account.internal_error user_data) = true
                        \/ exists e,
                             common_name_read_raises credentials user_data e))
        /\ (forall e : Exception,
              validate credentials = Raise e ->
              e = AccountDenied (Credentials.username credentials)
              \/ e = InternalFault (Credentials.username credentials)
              \/ ((exists k, e = KeyError k)
                  /\ ~ checked_entry_present credentials user_data)
              \/ common_name_read_raises credentials user_data e)).
Proof.
  split; [apply validate_unknown|].
  intros user_data E.
  split; [by apply validate_denied|].
  split; [by apply validate_internal_error|].
  split.
  { intros D I e R.
    rewrite (validate_dispatch _ _ credentials user_data E D I).
    by eapply kind_specific_check_read_raises. }
  split; cycle 1.
  { intros e He.
    destruct (key_is_set (Account.denied user_data)) eqn:D.
    { rewrite (validate_denied _ _ credentials user_data E D) in He.
      left. congruence. }
    destruct (key_is_set (Account.internal_error user_data)) eqn:I.
    { rewrite (validate_internal_error _ _ credentials user_data E D I) in He.
      right. left. congruence. }
    rewrite (validate_dispatch _ _ credentials user_data E D I) in He.
    right. right. by eapply kind_specific_check_raises. }
  intros P.
  assert (key_is_set (Account.denied user_data) = false ->
          key_is_set (Account.internal_error user_data) = false ->
          (forall e, ~ common_name_read_raises credentials user_data e) ->
          exists verdict, validate credentials = Return verdict) as Hret.
  { intros D I N. rewrite (validate_dispatch _ _ credentials user_data E D I).
    by eapply kind_specific_check_returns. }
  split; [done|]. split.
  - intros [e He].
    destruct (key_is_set (Account.denied user_data)) eqn:D; [by left|].
    destruct (key_is_set (Account.internal_error user_data)) eqn:I;
      [by right; left|].
    right. right. exists e.
    rewrite (validate_dispatch _ _ credentials user_data E D I) in He.
    destruct (kind_specific_check_raises _ _ credentials user_data e E He)
      as [[_ Hn]|R]; [done|exact R].
  - intros [D|[I|[e R]]].
    + eexists. by eapply validate_denied.
    + destruct (key_is_set (Account.denied user_data)) eqn:D.
      * eexists. by eapply validate_denied.
      * eexists. by eapply validate_internal_error.
    + destruct (key_is_set (Account.denied user_data)) eqn:D.
      { eexists. by eapply validate_denied. }
      destruct (key_is_set (Account.internal_error user_data)) eqn:I.
      { eexists. by eapply validate_internal_error. }
      exists e. rewrite (validate_dispatch _ _ credentials user_data E D I).
      by eapply kind_specific_check_read_raises.
Qed.

End Validator.

(** ** Duplicated keys *)

Section Duplicates.
Variable key_matches : SSHKeyCredentials.t -> string -> bool.
Variable self : InMemoryExtension.t.

Local Abbreviation check := (any_key_authorized key_matches).
Local Abbreviation db := (_users_database self).

(** C6. Appending to the stored key list of an account a key that the
    list already holds changes nothing for SSH key validation: the
    verdict is the same with the longer list, and in particular an
    Accepted key stays Accepted. *)
Theorem duplicate_key_same_verdict
    (c : SSHKeyCredentials.t) (u : string) (user_data : Account.t)
    (keys : list string) (key : string) :
  db !! u = Some user_data ->
  Account.ssh_keys user_data = Some keys ->
  keys <> [] ->
  key ∈ keys ->
  let self' :=
    InMemoryExtension.__init__
      (<[u := Account.with_ssh_keys (keys ++ [key]) user_data]> db) in
  _validateSSHCredentials check self' c = _validateSSHCredentials check self c
  /\ validateCredentials check self' (ISSHKeyCredentials c)
     = validateCredentials check self (ISSHKeyCredentials c)
  /\ (validateCredentials check self (ISSHKeyCredentials c) = Return Accepted ->
      validateCredentials check self' (ISSHKeyCredentials c) = Return Accepted).
Proof.
  intros E K Hne Hin self'.
  pose proof (any_key_authorized_duplicate key_matches c keys key Hin) as Hdup.
  assert (_validateSSHCredentials check self' c
          = _validateSSHCredentials check self c) as Hssh.
  { destruct (decide (u = SSHKeyCredentials.username c)) as [->|Hu].
    - rewrite (ssh_check check self c user_data E).
      rewrite (ssh_check check self' c
                 (Account.with_ssh_keys (keys ++ [key]) user_data)
                 (lookup_insert_eq _ _ _)).
      simpl. rewrite K. simpl. rewrite Hdup.
      destruct keys; [done|]. done.
    - unfold _validateSSHCredentials, getitem, self'. simpl.
      by rewrite lookup_insert_ne. }
  assert (validateCredentials check self' (ISSHKeyCredentials c)
          = validateCredentials check self (ISSHKeyCredentials c)) as Hv.
  { unfold validateCredentials. rewrite Hssh. simpl.
    unfold contains, getitem, self'. simpl.
    destruct (decide (u = SSHKeyCredentials.username c)) as [->|Hu].
    - rewrite lookup_insert_eq, E. done.
    - by rewrite lookup_insert_ne. }
  split; [done|]. split; [done|]. by rewrite Hv.
Qed.

End Duplicates.

(** ** The configuration lookup *)

Section ConfigurationLookup.
Variable self : InMemoryExtension.t.

Local Abbreviation db := (_users_database self).

Lemma configuration_unknown (credentials : Credentials.t) :
  db !! Credentials.username credentials = None ->
  getAccountConfiguration self credentials = Return None.
Proof.
  intros E. unfold getAccountConfiguration, getitem. by rewrite E.
Qed.

Lemma configuration_missing (credentials : Credentials.t) (user_data : Account.t) :
  db !! Credentials.username credentials = Some user_data ->
  Account.configuration user_data = None ->
  getAccountConfiguration self credentials = Return None.
Proof.
  intros E C. unfold getAccountConfiguration, getitem. rewrite E. simpl.
  by rewrite C.
Qed.

(** C8. For a user name of the table: when the account has a
    configuration, the lookup returns an avatar named after the user
    whose [create_home_folder] and [home_folder_path] read that
    configuration; when the account has no configuration entry, the
    lookup returns nothing and raises nothing. *)
Theorem configuration_of_known_account
    (credentials : Credentials.t) (user_data : Account.t) :
  db !! Credentials.username credentials = Some user_data ->
  (forall configuration : Configuration.t,
     Account.configuration user_data = Some configuration ->
     exists avatar : InMemoryExternalAvatar.t,
       getAccountConfiguration self credentials = Return (Some avatar)
       /\ InMemoryExternalAvatar.name avatar = Credentials.username credentials
       /\ InMemoryExternalAvatar.create_home_folder avatar
          = getkey "create_home_folder"
              (Configuration.create_home_folder configuration)
       /\ InMemoryExternalAvatar.home_folder_path avatar
          = getkey "home_folder_path"
              (Configuration.home_folder_path configuration))
  /\ (Account.configuration user_data = None ->
      getAccountConfiguration self credentials = Return None).
Proof.
  intros E. split.
  - intros configuration C.
    exists (InMemoryExternalAvatar.__init__
              (Credentials.username credentials) configuration).
    unfold getAccountConfiguration, getitem. rewrite E. simpl. by rewrite C.
  - by apply configuration_missing.
Qed.

End ConfigurationLookup.

(** C10. For a user name outside the table the configuration lookup
    returns nothing and raises nothing, which is also what it does for a
    known account without a configuration entry. *)
Theorem configuration_of_unknown_account
    (self : InMemoryExtension.t) (credentials : Credentials.t) :
  _users_database self !! Credentials.username credentials = None ->
  getAccountConfiguration self credentials = Return None
  /\ (forall (self' : InMemoryExtension.t) (credentials' : Credentials.t)
             (user_data : Account.t),
        _users_database self' !! Credentials.username credentials' = Some user_data ->
        Account.configuration user_data = None ->
        getAccountConfiguration self' credentials'
          = getAccountConfiguration self credentials).
Proof.
  intros E. rewrite (configuration_unknown self credentials E).
  split; [done|]. intros self' credentials' user_data E' C.
  by eapply configuration_missing.
Qed.

(** ** The sample table *)

Example user1_password_accepted :
  validateCredentials listed_key extension
    (IPasswordCredentials (PasswordCredentials.mk "user1" "password1"))
  = Return Accepted.
Proof. vm_compute. reflexivity. Qed.

Example user1_wrong_password_rejected :
  validateCredentials listed_key extension
    (IPasswordCredentials (PasswordCredentials.mk "user1" "password2"))
  = Return Rejected.
Proof. vm_compute. reflexivity. Qed.

Example user2_has_no_password :
  validateCredentials listed_key extension
    (IPasswordCredentials (PasswordCredentials.mk "user2" "anything"))
  = Return Rejected.
Proof. vm_compute. reflexivity. Qed.

Example user1_key_accepted :
  validateCredentials listed_key extension
    (ISSHKeyCredentials (SSHKeyCredentials.mk "user1" (Some SSH_PUB1)))
  = Return Accepted.
Proof. vm_compute. reflexivity. Qed.

Example user2_has_no_keys :
  validateCredentials listed_key extension
    (ISSHKeyCredentials (SSHKeyCredentials.mk "user2" (Some SSH_PUB1)))
  = Return Rejected.
Proof. vm_compute. reflexivity. Qed.

Example user1_certificate_not_allowed :
  validateCredentials listed_key extension
    (ISSLCertificateCredentials
       (SSLCertificateCredentials.mk "user1" (Some (certificate_of "user1"))))
  = Return Rejected.
Proof. vm_compute. reflexivity. Qed.

Example user2_certificate_accepted :
  validateCredentials listed_key extension
    (ISSLCertificateCredentials
       (SSLCertificateCredentials.mk "user2" (Some (certificate_of "user2"))))
  = Return Accepted.
Proof. vm_compute. reflexivity. Qed.

Example user3_is_denied :
  validateCredentials listed_key extension
    (IPasswordCredentials (PasswordCredentials.mk "user3" "password1"))
  = Raise (AccountDenied "user3").
Proof. vm_compute. reflexivity. Qed.

Example user4_fails :
  validateCredentials listed_key extension
    (ISSHKeyCredentials (SSHKeyCredentials.mk "user4" (Some SSH_PUB1)))
  = Raise (InternalFault "user4").
Proof. vm_compute. reflexivity. Qed.

Example user3_has_no_configuration :
  getAccountConfiguration extension (OtherCredentials "user3") = Return None.
Proof. vm_compute. reflexivity. Qed.

(** ** Where C1, C3 and C4 as first stated fail *)

(** C1 as stated says that a known account raises only when one of its two
    flags is set. With [user3] of the sample table no longer denied, a
    password login finds no ['password'] entry and the subscript raises
    [KeyError], although neither flag is set. And on the sample table
    itself, a certificate for [user2] whose common name cannot be read
    makes the validator raise what the read raised, although [user2] has
    no flag set and all its entries. *)
Lemma faults_beyond_the_two_flags :
  (_users_database reopened !! "user3" = Some user3_reopened
   /\ key_is_set (Account.denied user3_reopened) = false
   /\ key_is_set (Account.internal_error user3_reopened) = false
   /\ validateCredentials listed_key reopened
        (IPasswordCredentials (PasswordCredentials.mk "user3" "secret"))
      = Raise (KeyError "password")
   /\ ~ (exists verdict,
           validateCredentials listed_key reopened
             (IPasswordCredentials (PasswordCredentials.mk "user3" "secret"))
           = Return verdict))
  /\ (_users_database extension !! "user2" = Some user2
      /\ key_is_set (Account.denied user2) = false
      /\ key_is_set (Account.internal_error user2) = false
      /\ validateCredentials listed_key extension
           (ISSLCertificateCredentials
              (SSLCertificateCredentials.mk "user2" (Some unreadable_certificate)))
         = Raise (ForeignException "commonName failed")
      /\ ~ (exists verdict,
              validateCredentials listed_key extension
                (ISSLCertificateCredentials
                   (SSLCertificateCredentials.mk "user2"
                      (Some unreadable_certificate)))
              = Return verdict)).
Proof.
  assert (validateCredentials listed_key reopened
            (IPasswordCredentials (PasswordCredentials.mk "user3" "secret"))
          = Raise (KeyError "password")) as H by (vm_compute; reflexivity).
  assert (validateCredentials listed_key extension
            (ISSLCertificateCredentials
               (SSLCertificateCredentials.mk "user2" (Some unreadable_certificate)))
          = Raise (ForeignException "commonName failed")) as H'
    by (vm_compute; reflexivity).
  split.
  - split; [vm_compute; reflexivity|].
    split; [reflexivity|]. split; [reflexivity|]. split; [exact H|].
    intros [verdict Hv]. rewrite H in Hv. discriminate.
  - split; [vm_compute; reflexivity|].
    split; [reflexivity|]. split; [reflexivity|]. split; [exact H'|].
    intros [verdict Hv]. rewrite H' in Hv. discriminate.
Qed.

(** C3 as stated gives every certificate whose common name is not found
    equal to the user name the verdict Rejected. For [user2] of the
    sample table, which allows certificates, a certificate whose subject
    is obtained but whose common name cannot be read gets neither
    Accepted nor Rejected. *)
Lemma unreadable_common_name_gets_no_verdict :
  _users_database extension !! "user2" = Some user2
  /\ key_is_set (Account.denied user2) = false
  /\ key_is_set (Account.internal_error user2) = false
  /\ Account.allow_certificate user2 = Some true
  /\ (forall subject,
        X509.get_subject unreadable_certificate = Return subject ->
        X509Name.commonName subject <> Return (Some "user2"))
  /\ validateCredentials listed_key extension
       (ISSLCertificateCredentials
          (SSLCertificateCredentials.mk "user2" (Some unreadable_certificate)))
     <> Return Accepted
  /\ validateCredentials listed_key extension
       (ISSLCertificateCredentials
          (SSLCertificateCredentials.mk "user2" (Some unreadable_certificate)))
     <> Return Rejected.
Proof.
  assert (validateCredentials listed_key extension
            (ISSLCertificateCredentials
               (SSLCertificateCredentials.mk "user2" (Some unreadable_certificate)))
          = Raise (ForeignException "commonName failed")) as H
    by (vm_compute; reflexivity).
  split; [vm_compute; reflexivity|].
  split; [reflexivity|]. split; [reflexivity|]. split; [reflexivity|].
  split; [by intros subject [= <-]|].
  rewrite H. split; discriminate.
Qed.

(** C4 as stated has every fault of the extraction of the common name
    swallowed. With the certificate supplied, the account known, neither
    denied nor failing and allowing certificates, a fault of the read of
    the common name is not swallowed: it leaves the validator, and the
    verdict Rejected is not returned. *)
Lemma common_name_fault_escapes :
  _users_database extension !! "user2" = Some user2
  /\ key_is_set (Account.denied user2) = false
  /\ key_is_set (Account.internal_error user2) = false
  /\ Account.allow_certificate user2 = Some true
  /\ (exists subject,
        X509.get_subject unreadable_certificate = Return subject
        /\ X509Name.commonName subject
           = Raise (ForeignException "commonName failed"))
  /\ validateCredentials listed_key extension
       (ISSLCertificateCredentials
          (SSLCertificateCredentials.mk "user2" (Some unreadable_certificate)))
     = Raise (ForeignException "commonName failed")
  /\ validateCredentials listed_key extension
       (ISSLCertificateCredentials
          (SSLCertificateCredentials.mk "user2" (Some unreadable_certificate)))
     <> Return Rejected.
Proof.
  assert (validateCredentials listed_key extension
            (ISSLCertificateCredentials
               (SSLCertificateCredentials.mk "user2" (Some unreadable_certificate)))
          = Raise (ForeignException "commonName failed")) as H
    by (vm_compute; reflexivity).
  split; [vm_compute; reflexivity|].
  split; [reflexivity|]. split; [reflexivity|]. split; [reflexivity|].
  split; [by eexists|]. split; [exact H|]. rewrite H. discriminate.
Qed.

(** The exception that leaves the validator is the one the read raised,
    whatever its class: a [KeyError] of the read is a [KeyError] of the
    validator, on an account that has all its entries. *)
Example common_name_KeyError_escapes :
  validateCredentials listed_key extension
    (ISSLCertificateCredentials
       (SSLCertificateCredentials.mk "user2"
          (Some (X509.mk (Return (X509Name.mk (Raise (KeyError "CN"))))))))
  = Raise (KeyError "CN").
Proof. vm_compute. reflexivity. Qed.

(** ** The theorems at concrete inputs *)

Lemma unknown_username_rejected_at_nobody :
  _users_database extension !! "nobody" = None
  /\ validateCredentials listed_key extension
       (ISSHKeyCredentials (SSHKeyCredentials.mk "nobody" (Some SSH_PUB1)))
     = Return Rejected.
Proof.
  split; [vm_compute; reflexivity|].
  apply (unknown_username_rejected listed_key extension
           (ISSHKeyCredentials (SSHKeyCredentials.mk "nobody" (Some SSH_PUB1)))).
  vm_compute; reflexivity.
Defined.

Lemma denied_before_internal_error_at_user5 :
  validateCredentials listed_key with_user5
    (IPasswordCredentials (PasswordCredentials.mk "user5" "secret"))
  = Raise (AccountDenied "user5").
Proof.
  eapply proj1.
  apply (denied_before_internal_error listed_key with_user5
           (IPasswordCredentials (PasswordCredentials.mk "user5" "secret"))
           user5).
  - vm_compute; reflexivity.
  - reflexivity.
  - reflexivity.
Defined.

Lemma password_verdict_at_user1 :
  validateCredentials listed_key extension
    (IPasswordCredentials (PasswordCredentials.mk "user1" "password1"))
  = Return Accepted.
Proof.
  destruct (password_verdict listed_key extension
              (PasswordCredentials.mk "user1" "password1") user1)
    as [_ H]; [vm_compute; reflexivity | reflexivity | reflexivity |].
  destruct (H "password1") as [_ H']; [reflexivity | discriminate |].
  destruct H' as [[_ Hacc] _]; [discriminate|].
  apply Hacc. reflexivity.
Defined.

Lemma certificate_verdict_at_user2 :
  validateCredentials listed_key extension
    (ISSLCertificateCredentials
       (SSLCertificateCredentials.mk "user2" (Some (certificate_of "user2"))))
  = Return Accepted.
Proof.
  destruct (certificate_verdict listed_key extension
              (SSLCertificateCredentials.mk "user2" (Some (certificate_of "user2")))
              user2)
    as [_ H]; [vm_compute; reflexivity | reflexivity | reflexivity |].
  destruct (H (certificate_of "user2")) as [_ H']; [reflexivity|].
  destruct H' as [[_ Hacc] _]; [reflexivity|].
  apply Hacc. exists (X509Name.mk (Return (Some "user2"))). split; reflexivity.
Defined.

Lemma subject_fault_swallowed_at_user2 :
  validateCredentials listed_key extension
    (ISSLCertificateCredentials
       (SSLCertificateCredentials.mk "user2" (Some broken_certificate)))
  = Return Rejected
  /\ validateCredentials listed_key extension
       (ISSLCertificateCredentials
          (SSLCertificateCredentials.mk "user2" (Some unreadable_certificate)))
     = Raise (ForeignException "commonName failed").
Proof.
  split.
  - destruct (subject_fault_swallowed listed_key extension
                (SSLCertificateCredentials.mk "user2" (Some broken_certificate))
                user2 broken_certificate) as [H _];
      [vm_compute; reflexivity | reflexivity | reflexivity | reflexivity
      | reflexivity |].
    apply (H (ForeignException "get_subject failed")). reflexivity.
  - destruct (subject_fault_swallowed listed_key extension
                (SSLCertificateCredentials.mk "user2"
                   (Some unreadable_certificate))
                user2 unreadable_certificate) as [_ H];
      [vm_compute; reflexivity | reflexivity | reflexivity | reflexivity
      | reflexivity |].
    apply (H (X509Name.mk (Raise (ForeignException "commonName failed"))));
      reflexivity.
Defined.

Lemma ssh_key_verdict_at_user1 :
  validateCredentials listed_key extension
    (ISSHKeyCredentials (SSHKeyCredentials.mk "user1" (Some SSH_PUB1)))
  = Return Accepted.
Proof.
  destruct (ssh_key_verdict listed_key extension
              (SSHKeyCredentials.mk "user1" (Some SSH_PUB1)) user1)
    as [_ H]; [vm_compute; reflexivity | reflexivity | reflexivity |].
  destruct (H [SSH_PUB1; SSH_PUB1]) as [_ H']; [reflexivity | reflexivity |].
  destruct H' as [[_ Hacc] _]; [discriminate|].
  apply Hacc. vm_compute; reflexivity.
Defined.

Lemma duplicate_key_same_verdict_at_user1 :
  validateCredentials listed_key
    (InMemoryExtension.__init__
       (<["user1" := Account.with_ssh_keys
                       ([SSH_PUB1; SSH_PUB1] ++ [SSH_PUB1]) user1]> USERS))
    (ISSHKeyCredentials (SSHKeyCredentials.mk "user1" (Some SSH_PUB1)))
  = validateCredentials listed_key extension
      (ISSHKeyCredentials (SSHKeyCredentials.mk "user1" (Some SSH_PUB1))).
Proof.
  destruct (duplicate_key_same_verdict same_key extension
              (SSHKeyCredentials.mk "user1" (Some SSH_PUB1))
              "user1" user1 [SSH_PUB1; SSH_PUB1] SSH_PUB1)
    as (_ & H & _).
  - vm_compute; reflexivity.
  - reflexivity.
  - discriminate.
  - apply list_elem_of_here.
  - exact H.
Defined.

Lemma fault_boundary_at_sample_table :
  (exists verdict,
     validateCredentials listed_key extension
       (IPasswordCredentials (PasswordCredentials.mk "user1" "password1"))
     = Return verdict)
  /\ validateCredentials listed_key extension
       (ISSHKeyCredentials (SSHKeyCredentials.mk "user3" (Some SSH_PUB1)))
     = Raise (AccountDenied "user3")
  /\ validateCredentials listed_key extension
       (IPasswordCredentials (PasswordCredentials.mk "user4" "secret"))
     = Raise (InternalFault "user4")
  /\ validateCredentials listed_key extension
       (ISSLCertificateCredentials
          (SSLCertificateCredentials.mk "user2" (Some unreadable_certificate)))
     = Raise (ForeignException "commonName failed").
Proof.
  split; [|split; [|split]].
  - destruct (fault_boundary listed_key extension
                (IPasswordCredentials (PasswordCredentials.mk "user1" "password1")))
      as [_ H].
    destruct (H user1) as (_ & _ & _ & H' & _); [vm_compute; reflexivity|].
    destruct H' as [Hret _]; [by exists "password1"|].
    apply Hret; [reflexivity | reflexivity |]. intros e [].
  - destruct (fault_boundary listed_key extension
                (ISSHKeyCredentials (SSHKeyCredentials.mk "user3" (Some SSH_PUB1))))
      as [_ H].
    destruct (H user3) as (Hd & _); [vm_compute; reflexivity|].
    apply Hd. reflexivity.
  - destruct (fault_boundary listed_key extension
                (IPasswordCredentials (PasswordCredentials.mk "user4" "secret")))
      as [_ H].
    destruct (H user4) as (_ & Hi & _); [vm_compute; reflexivity|].
    apply Hi; reflexivity.
  - destruct (fault_boundary listed_key extension
                (ISSLCertificateCredentials
                   (SSLCertificateCredentials.mk "user2"
                      (Some unreadable_certificate))))
      as [_ H].
    destruct (H user2) as (_ & _ & Hr & _); [vm_compute; reflexivity|].
    apply Hr; [reflexivity | reflexivity |].
    exists unreadable_certificate,
      (X509Name.mk (Raise (ForeignException "commonName failed"))).
    repeat split; reflexivity.
Defined.

Lemma configuration_of_known_account_at_user1 :
  exists avatar,
    getAccountConfiguration extension (OtherCredentials "user1")
    = Return (Some avatar)
    /\ InMemoryExternalAvatar.name avatar = "user1"
    /\ InMemoryExternalAvatar.create_home_folder avatar = Return false
    /\ InMemoryExternalAvatar.home_folder_path avatar = Return "/tmp".
Proof.
  destruct (configuration_of_known_account extension
              (OtherCredentials "user1") user1) as [H _];
    [vm_compute; reflexivity|].
  exact (H (Configuration.mk (Some false) (Some "/tmp")) eq_refl).
Defined.

Lemma configuration_of_unknown_account_at_nobody :
  getAccountConfiguration extension (OtherCredentials "nobody") = Return None
  /\ getAccountConfiguration extension (OtherCredentials "user3")
     = getAccountConfiguration extension (OtherCredentials "nobody").
Proof.
  destruct (configuration_of_unknown_account extension (OtherCredentials "nobody"))
    as [H1 H2]; [vm_compute; reflexivity|].
  split; [exact H1|].
  apply (H2 extension (OtherCredentials "user3") user3);
    [vm_compute; reflexivity | reflexivity].
Defined.

(** ** Further properties of the configuration lookup *)

Lemma configuration_lookup_unfold
    (self : InMemoryExtension.t) (credentials : Credentials.t) :
  getAccountConfiguration self credentials =
    match _users_database self !! Credentials.username credentials
          ≫= Account.configuration with
    | Some configuration =>
        Return (Some (InMemoryExternalAvatar.__init__
                        (Credentials.username credentials) configuration))
    | None => Return None
    end.
Proof.
  unfold getAccountConfiguration, getitem.
  destruct (_users_database self !! Credentials.username credentials)
    as [user_data|]; simpl; [|done].
  by destruct (Account.configuration user_data).
Qed.

(** X2. The configuration lookup never raises, and it returns an avatar
    exactly when the user name is in the table and the account has a
    ['configuration'] entry; the avatar then holds the user name and that
    entry. *)
Theorem configuration_lookup_never_raises
    (self : InMemoryExtension.t) (credentials : Credentials.t) :
  (exists result, getAccountConfiguration self credentials = Return result)
  /\ (forall avatar : InMemoryExternalAvatar.t,
        getAccountConfiguration self credentials = Return (Some avatar)
        <-> exists user_data configuration,
              _users_database self !! Credentials.username credentials
                = Some user_data
              /\ Account.configuration user_data = Some configuration
              /\ avatar = InMemoryExternalAvatar.__init__
                            (Credentials.username credentials) configuration).
Proof.
  rewrite configuration_lookup_unfold.
  destruct (_users_database self !! Credentials.username credentials)
    as [user_data|]; simpl.
  - destruct (Account.configuration user_data) as [configuration|] eqn:C.
    + split; [by eexists|]. intros avatar. split.
      * intros [= <-]. by exists user_data, configuration.
      * intros (a & c & [= <-] & Hc & ->). congruence.
    + split; [by eexists|]. intros avatar. split; [done|].
      intros (a & c & [= <-] & Hc & _). congruence.
  - split; [by eexists|]. intros avatar. split; [done|].
    by intros (a & c & Ha & _).
Qed.

(** X3. The configuration lookup reads nothing but the ['configuration']
    entry stored under the user name: the kind and payload of the
    credentials, the other entries of the account (its [denied] and
    [internal_error] flags among them) and the other accounts have no
    influence on the result. *)
Theorem configuration_lookup_reads_only_configuration
    (self self' : InMemoryExtension.t) (credentials credentials' : Credentials.t) :
  Credentials.username credentials = Credentials.username credentials' ->
  _users_database self !! Credentials.username credentials
    ≫= Account.configuration
  = _users_database self' !! Credentials.username credentials'
    ≫= Account.configuration ->
  getAccountConfiguration self credentials
  = getAccountConfiguration self' credentials'.
Proof.
  intros U C. rewrite !configuration_lookup_unfold. by rewrite C, U.
Qed.

(** X1. An account whose configuration dictionary lacks a key still gets
    its avatar: the [KeyError] is not raised by the lookup but later, by
    the property of the avatar that reads the missing key, while a
    property whose key is there returns the stored value. *)
Theorem avatar_properties_fail_late
    (self : InMemoryExtension.t) (credentials : Credentials.t)
    (user_data : Account.t) (configuration : Configuration.t) :
  _users_database self !! Credentials.username credentials = Some user_data ->
  Account.configuration user_data = Some configuration ->
  exists avatar : InMemoryExternalAvatar.t,
    getAccountConfiguration self credentials = Return (Some avatar)
    /\ (Configuration.create_home_folder configuration = None
        <-> InMemoryExternalAvatar.create_home_folder avatar
            = Raise (KeyError "create_home_folder"))
    /\ (Configuration.home_folder_path configuration = None
        <-> InMemoryExternalAvatar.home_folder_path avatar
            = Raise (KeyError "home_folder_path"))
    /\ (forall b : bool,
          Configuration.create_home_folder configuration = Some b
          <-> InMemoryExternalAvatar.create_home_folder avatar = Return b)
    /\ (forall path : string,
          Configuration.home_folder_path configuration = Some path
          <-> InMemoryExternalAvatar.home_folder_path avatar = Return path).
Proof.
  intros E C. eexists. split.
  { rewrite configuration_lookup_unfold, E. simpl. by rewrite C. }
  unfold InMemoryExternalAvatar.create_home_folder,
    InMemoryExternalAvatar.home_folder_path. simpl.
  destruct (Configuration.create_home_folder configuration),
    (Configuration.home_folder_path configuration); simpl;
    repeat split; intros; congruence.
Qed.

Lemma avatar_properties_fail_late_at_user6 :
  exists avatar,
    getAccountConfiguration with_user6 (OtherCredentials "user6")
    = Return (Some avatar)
    /\ InMemoryExternalAvatar.create_home_folder avatar
       = Raise (KeyError "create_home_folder").
Proof.
  destruct (avatar_properties_fail_late with_user6 (OtherCredentials "user6")
              user6 (Configuration.mk None None))
    as (avatar & H & Hc & _); [vm_compute; reflexivity | reflexivity |].
  exists avatar. split; [exact H|]. apply Hc. reflexivity.
Defined.

Lemma configuration_lookup_reads_only_configuration_at_user1 :
  getAccountConfiguration extension
    (IPasswordCredentials (PasswordCredentials.mk "user1" "wrong"))
  = getAccountConfiguration reopened (OtherCredentials "user1").
Proof.
  apply configuration_lookup_reads_only_configuration.
  - reflexivity.
  - vm_compute; reflexivity.
Defined.

(** ** Further properties of the validator *)

Section Outcomes.
Variable is_key_authorized : SSHKeyCredentials.t -> list string -> bool.
Variable self : InMemoryExtension.t.

Local Abbreviation validate := (validateCredentials is_key_authorized self).
Local Abbreviation check := (kind_specific_check is_key_authorized self).
Local Abbreviation db := (_users_database self).

(** The gate of the validator, as a three-way case on the account. *)
Lemma validate_gate (credentials : Credentials.t) :
  validate credentials =
    match db !! Credentials.username credentials with
    | None => Return Rejected
    | Some user_data =>
        if key_is_set (Account.denied user_data)
        then Raise (AccountDenied (Credentials.username credentials))
        else if key_is_set (Account.internal_error user_data)
        then Raise (InternalFault (Credentials.username credentials))
        else check credentials
    end.
Proof.
  destruct (db !! Credentials.username credentials) as [user_data|] eqn:E.
  - destruct (key_is_set (Account.denied user_data)) eqn:D.
    + by eapply validate_denied.
    + destruct (key_is_set (Account.internal_error user_data)) eqn:I.
      * by eapply validate_internal_error.
      * by eapply validate_dispatch.
  - by apply validate_unknown.
Qed.

Lemma check_Indeterminate (credentials : Credentials.t) (user_data : Account.t) :
  db !! Credentials.username credentials = Some user_data ->
  check credentials = Return Indeterminate
  <-> exists c, credentials = IPasswordCredentials c
                /\ PasswordCredentials.password c = EmptyString.
Proof.
  intros E. destruct credentials as [c|c|c|u]; simpl in *.
  - rewrite (password_check _ c user_data E).
    destruct (PasswordCredentials.password c) as [|a s] eqn:P; simpl.
    + split; [|done]. intros _. exists c. by rewrite P.
    + split.
      * destruct (Account.password user_data) as [stored|]; simpl; [|done].
        destruct (truth stored); simpl; [|done]. by case_bool_decide.
      * intros (c' & [= <-] & P'). congruence.
  - rewrite (ssh_check _ _ c user_data E). split.
    + destruct (truth (SSHKeyCredentials.key_data c)); simpl; [|done].
      destruct (Account.ssh_keys user_data) as [keys|]; simpl; [|done].
      destruct (truth keys); simpl; [|done].
      by destruct (is_key_authorized c keys).
    + by intros (c' & [=] & _).
  - split.
    + destruct (SSLCertificateCredentials.certificate c) as [certificate|] eqn:C.
      * rewrite (ssl_check _ c user_data certificate E C).
        destruct (Account.allow_certificate user_data) as [allow|]; simpl; [|done].
        destruct (truth allow); simpl; [|done].
        destruct (X509.get_subject certificate) as [subject|]; [|done].
        destruct (X509Name.commonName subject); [|done]. simpl.
        by case_bool_decide.
      * unfold _validateSSLCredentials. by rewrite C.
    + by intros (c' & [=] & _).
  - split; [done|]. by intros (c' & [=] & _).
Qed.

(** X4. The verdict Indeterminate is returned in one situation only: a
    password credential with an empty password, for a user of the table
    whose account is neither denied nor failing. SSH key and certificate
    credentials, and credentials of no known kind, never get it. *)
Theorem indeterminate_only_for_empty_password (credentials : Credentials.t) :
  validate credentials = Return Indeterminate
  <-> exists c user_data,
        credentials = IPasswordCredentials c
        /\ PasswordCredentials.password c = EmptyString
        /\ db !! PasswordCredentials.username c = Some user_data
        /\ key_is_set (Account.denied user_data) = false
        /\ key_is_set (Account.internal_error user_data) = false.
Proof.
  rewrite validate_gate.
  destruct (db !! Credentials.username credentials) as [user_data|] eqn:E.
  - destruct (key_is_set (Account.denied user_data)) eqn:D.
    { split; [done|]. intros (c & a & -> & _ & Ha & Hd & _).
      simpl in E. congruence. }
    destruct (key_is_set (Account.internal_error user_data)) eqn:I.
    { split; [done|]. intros (c & a & -> & _ & Ha & _ & Hi).
      simpl in E. congruence. }
    rewrite (check_Indeterminate credentials user_data E). split.
    + intros (c & -> & P). by exists c, user_data.
    + intros (c & a & -> & P & _). by exists c.
  - split; [done|]. intros (c & a & -> & _ & Ha & _).
    simpl in E. congruence.
Qed.

Lemma check_Accepted (credentials : Credentials.t) (user_data : Account.t) :
  db !! Credentials.username credentials = Some user_data ->
  check credentials = Return Accepted
  <-> (exists c,
         credentials = IPasswordCredentials c
         /\ PasswordCredentials.password c <> EmptyString
         /\ Account.password user_data = Some (PasswordCredentials.password c))
      \/ (exists c keys,
            credentials = ISSHKeyCredentials c
            /\ truth (SSHKeyCredentials.key_data c) = true
            /\ Account.ssh_keys user_data = Some keys
            /\ keys <> []
            /\ is_key_authorized c keys = true)
      \/ (exists c certificate subject,
            credentials = ISSLCertificateCredentials c
            /\ SSLCertificateCredentials.certificate c = Some certificate
            /\ Account.allow_certificate user_data = Some true
            /\ X509.get_subject certificate = Return subject
            /\ X509Name.commonName subject
               = Return (Some (SSLCertificateCredentials.username c))).
Proof.
  intros E. destruct credentials as [c|c|c|u]; simpl in *.
  - rewrite (password_check _ c user_data E). split.
    + intros H. left. exists c. split; [done|].
      destruct (PasswordCredentials.password c) as [|a s] eqn:P; [done|].
      split; [done|]. simpl in H.
      destruct (Account.password user_data) as [stored|]; simpl in H; [|done].
      destruct (truth stored); simpl in H; [|done].
      case_bool_decide; [congruence|done].
    + intros [(c' & [= <-] & P & S)|[(c' & ? & [=] & _)|(c' & ? & ? & [=] & _)]].
      apply truth_str_true in P. rewrite P, S. simpl. rewrite P. simpl.
      by rewrite bool_decide_eq_true_2.
  - rewrite (ssh_check _ _ c user_data E). split.
    + intros H. right. left.
      destruct (truth (SSHKeyCredentials.key_data c)) eqn:K; simpl in H; [|done].
      destruct (Account.ssh_keys user_data) as [keys|]; simpl in H; [|done].
      exists c, keys. destruct keys as [|k keys']; [done|].
      change (truth (k :: keys')) with true in H. simpl in H.
      destruct (is_key_authorized c (k :: keys')); [done|done].
    + intros [(c' & [=] & _)|[(c' & keys & [= <-] & K & S & Hne & A)
                             |(c' & ? & ? & [=] & _)]].
      rewrite K, S. simpl. destruct keys as [|k keys']; [done|].
      change (truth (k :: keys')) with true. simpl. by rewrite A.
  - split.
    + intros H. right. right.
      destruct (SSLCertificateCredentials.certificate c) as [certificate|] eqn:C.
      * rewrite (ssl_check _ c user_data certificate E C) in H.
        destruct (Account.allow_certificate user_data) as [[]|]; simpl in H;
          try done.
        destruct (X509.get_subject certificate) as [subject|] eqn:G; [|done].
        destruct (X509Name.commonName subject) as [common_name|] eqn:R;
          [|done].
        simpl in H. exists c, certificate, subject.
        case_bool_decide; [by subst|done].
      * unfold _validateSSLCredentials in H. by rewrite C in H.
    + intros [(c' & [=] & _)|[(c' & ? & [=] & _)
                             |(c' & certificate & subject & [= <-] & C & A & G & N)]].
      rewrite (ssl_check _ c user_data certificate E C), A, G, N. simpl.
      by rewrite bool_decide_eq_true_2.
  - split; [done|].
    by intros [(c' & [=] & _)|[(c' & ? & [=] & _)|(c' & ? & ? & [=] & _)]].
Qed.

(** X6. The validator accepts in three situations only, always for a user
    of the table whose account is neither denied nor failing: a non-empty
    supplied password equal to the stored one; supplied key data, a
    non-empty stored key list and a positive answer of the host's key
    check; or a supplied certificate on an account that allows
    certificates, whose subject is obtained and carries the user name as
    common name. *)
Theorem accepted_exactly_when (credentials : Credentials.t) :
  validate credentials = Return Accepted
  <-> exists user_data,
        db !! Credentials.username credentials = Some user_data
        /\ key_is_set (Account.denied user_data) = false
        /\ key_is_set (Account.internal_error user_data) = false
        /\ ((exists c,
               credentials = IPasswordCredentials c
               /\ PasswordCredentials.password c <> EmptyString
               /\ Account.password user_data
                  = Some (PasswordCredentials.password c))
            \/ (exists c keys,
                  credentials = ISSHKeyCredentials c
                  /\ truth (SSHKeyCredentials.key_data c) = true
                  /\ Account.ssh_keys user_data = Some keys
                  /\ keys <> []
                  /\ is_key_authorized c keys = true)
            \/ (exists c certificate subject,
                  credentials = ISSLCertificateCredentials c
                  /\ SSLCertificateCredentials.certificate c = Some certificate
                  /\ Account.allow_certificate user_data = Some true
                  /\ X509.get_subject certificate = Return subject
                  /\ X509Name.commonName subject
                     = Return (Some (SSLCertificateCredentials.username c)))).
Proof.
  rewrite validate_gate.
  destruct (db !! Credentials.username credentials) as [user_data|] eqn:E.
  - destruct (key_is_set (Account.denied user_data)) eqn:D.
    { split; [done|]. intros (a & [= <-] & Hd & _). congruence. }
    destruct (key_is_set (Account.internal_error user_data)) eqn:I.
    { split; [done|]. intros (a & [= <-] & _ & Hi & _). congruence. }
    rewrite (check_Accepted credentials user_data E). split.
    + intros H. by exists user_data.
    + by intros (a & [= <-] & _ & _ & H).
  - split; [done|]. by intros (a & Ha & _).
Qed.

End Outcomes.

Section Faults.
Variable is_key_authorized : SSHKeyCredentials.t -> list string -> bool.
Variable self : InMemoryExtension.t.

Local Abbreviation validate := (validateCredentials is_key_authorized self).
Local Abbreviation check := (kind_specific_check is_key_authorized self).
Local Abbreviation db := (_users_database self).

Lemma check_KeyError
    (credentials : Credentials.t) (user_data : Account.t) (k : string) :
  db !! Credentials.username credentials = Some user_data ->
  check credentials = Raise (KeyError k)
  <-> (exists c,
         credentials = IPasswordCredentials c
         /\ PasswordCredentials.password c <> EmptyString
         /\ Account.password user_data = None
         /\ k = "password")
      \/ (exists c,
            credentials = ISSHKeyCredentials c
            /\ truth (SSHKeyCredentials.key_data c) = true
            /\ Account.ssh_keys user_data = None
            /\ k = "ssh_keys")
      \/ (exists c certificate,
            credentials = ISSLCertificateCredentials c
            /\ SSLCertificateCredentials.certificate c = Some certificate
            /\ Account.allow_certificate user_data = None
            /\ k = "allow_certificate")
      \/ common_name_read_raises credentials user_data (KeyError k).
Proof.
  intros E. destruct credentials as [c|c|c|u]; simpl in *.
  - rewrite (password_check _ c user_data E). split.
    + intros H. left. exists c. split; [done|].
      destruct (PasswordCredentials.password c) as [|a s] eqn:P; [done|].
      split; [done|]. simpl in H.
      destruct (Account.password user_data) as [stored|]; simpl in H.
      * destruct (truth stored); simpl in H; [|done]. by case_bool_decide.
      * split; congruence.
    + intros [(c' & [= <-] & P & S & ->)
             |[(c' & [=] & _)|[(c' & ? & [=] & _)|[]]]].
      apply truth_str_true in P. by rewrite P, S.
  - rewrite (ssh_check _ _ c user_data E). split.
    + intros H. right. left. exists c. split; [done|].
      destruct (truth (SSHKeyCredentials.key_data c)) eqn:K; simpl in H; [|done].
      split; [done|].
      destruct (Account.ssh_keys user_data) as [keys|]; simpl in H.
      * destruct (truth keys); simpl in H; [|done].
        by destruct (is_key_authorized c keys).
      * split; congruence.
    + intros [(c' & [=] & _)
             |[(c' & [= <-] & K & S & ->)|[(c' & ? & [=] & _)|[]]]].
      by rewrite K, S.
  - split.
    + intros H.
      destruct (SSLCertificateCredentials.certificate c) as [certificate|] eqn:C.
      * rewrite (ssl_check _ c user_data certificate E C) in H.
        destruct (Account.allow_certificate user_data) as [allow|] eqn:A;
          simpl in H.
        -- destruct allow; simpl in H; [|done].
           destruct (X509.get_subject certificate) as [subject|] eqn:G; [|done].
           destruct (X509Name.commonName subject) as [common_name|e] eqn:R;
             simpl in H.
           ++ by case_bool_decide.
           ++ right. right. right. exists certificate, subject.
              injection H as ->. done.
        -- right. right. left. exists c, certificate.
           split; [done|]. split; [done|]. split; congruence.
      * unfold _validateSSLCredentials in H. by rewrite C in H.
    + intros [(c' & [=] & _)
             |[(c' & [=] & _)
              |[(c' & certificate & [= <-] & C & A & ->)
               |(certificate & subject & C & A & G & R)]]].
      * by rewrite (ssl_check _ c user_data certificate E C), A.
      * by rewrite (ssl_check _ c user_data certificate E C), A, G, R.
  - split; [done|].
    by intros [(c' & [=] & _)|[(c' & [=] & _)|[(c' & ? & [=] & _)|[]]]].
Qed.

(** X5. The validator raises [KeyError] in two ways only, both for a user
    of the table whose account is neither denied nor failing. One is its
    own subscript: the credentials carry a payload (a non-empty password,
    key data, a certificate) and the account lacks the entry that the
    check for this kind reads; the key of the error is then the name of
    that entry. The other is the read of the common name of a
    certificate, when that read itself raises a [KeyError]. With an empty
    payload the missing entry is never reached and nothing is raised. *)
Theorem KeyError_exactly_when (credentials : Credentials.t) (k : string) :
  validate credentials = Raise (KeyError k)
  <-> exists user_data,
        db !! Credentials.username credentials = Some user_data
        /\ key_is_set (Account.denied user_data) = false
        /\ key_is_set (Account.internal_error user_data) = false
        /\ ((exists c,
               credentials = IPasswordCredentials c
               /\ PasswordCredentials.password c <> EmptyString
               /\ Account.password user_data = None
               /\ k = "password")
            \/ (exists c,
                  credentials = ISSHKeyCredentials c
                  /\ truth (SSHKeyCredentials.key_data c) = true
                  /\ Account.ssh_keys user_data = None
                  /\ k = "ssh_keys")
            \/ (exists c certificate,
                  credentials = ISSLCertificateCredentials c
                  /\ SSLCertificateCredentials.certificate c = Some certificate
                  /\ Account.allow_certificate user_data = None
                  /\ k = "allow_certificate")
            \/ common_name_read_raises credentials user_data (KeyError k)).
Proof.
  rewrite validate_gate.
  destruct (db !! Credentials.username credentials) as [user_data|] eqn:E.
  - destruct (key_is_set (Account.denied user_data)) eqn:D.
    { split; [done|]. intros (a & [= <-] & Hd & _). congruence. }
    destruct (key_is_set (Account.internal_error user_data)) eqn:I.
    { split; [done|]. intros (a & [= <-] & _ & Hi & _). congruence. }
    rewrite (check_KeyError credentials user_data k E). split.
    + intros H. by exists user_data.
    + by intros (a & [= <-] & _ & _ & H).
  - split; [done|]. by intros (a & Ha & _).
Qed.

(** X12. Credentials that provide none of the three interfaces are never
    accepted and never left undecided: the only verdict they get is
    Rejected, and the only faults are those of the two account flags. *)
Theorem unknown_kind_only_rejected (u : string) :
  (forall verdict : Verdict,
     validate (OtherCredentials u) = Return verdict -> verdict = Rejected)
  /\ (forall e : Exception,
        validate (OtherCredentials u) = Raise e ->
        e = AccountDenied u \/ e = InternalFault u).
Proof.
  rewrite validate_gate. simpl.
  destruct (db !! u) as [user_data|].
  - destruct (key_is_set (Account.denied user_data)).
    { split; [done|]. intros e [= <-]. by left. }
    destruct (key_is_set (Account.internal_error user_data)).
    { split; [done|]. intros e [= <-]. by right. }
    split; [|done]. by intros verdict [= <-].
  - split; [|done]. by intros verdict [= <-].
Qed.

(** X11. The three checks are safe only behind the gate of
    [validateCredentials]. Called for a user name that is not in the
    table, each of them stops early on an empty payload (Indeterminate
    for an empty password, Rejected for no key data or no certificate)
    and otherwise raises [KeyError] with the user name as key. *)
Theorem checks_without_gate :
  (forall c : PasswordCredentials.t,
     db !! PasswordCredentials.username c = None ->
     _validatePasswordCredentials self c =
       if truth (PasswordCredentials.password c)
       then Raise (KeyError (PasswordCredentials.username c))
       else Return Indeterminate)
  /\ (forall c : SSHKeyCredentials.t,
        db !! SSHKeyCredentials.username c = None ->
        _validateSSHCredentials is_key_authorized self c =
          if truth (SSHKeyCredentials.key_data c)
          then Raise (KeyError (SSHKeyCredentials.username c))
          else Return Rejected)
  /\ (forall c : SSLCertificateCredentials.t,
        db !! SSLCertificateCredentials.username c = None ->
        _validateSSLCredentials self c =
          match SSLCertificateCredentials.certificate c with
          | Some _ => Raise (KeyError (SSLCertificateCredentials.username c))
          | None => Return Rejected
          end).
Proof.
  split; [|split]; intros c E.
  - unfold _validatePasswordCredentials, getitem. rewrite E.
    by destruct (truth (PasswordCredentials.password c)).
  - unfold _validateSSHCredentials, getitem. rewrite E.
    by destruct (truth (SSHKeyCredentials.key_data c)).
  - unfold _validateSSLCredentials, getitem. rewrite E.
    by destruct (SSLCertificateCredentials.certificate c).
Qed.

End Faults.

(** ** What the outcome of the validator depends on *)

Section Dependence.
Variable is_key_authorized : SSHKeyCredentials.t -> list string -> bool.
Variables self self' : InMemoryExtension.t.

Local Abbreviation db := (_users_database self).
Local Abbreviation db' := (_users_database self').

Lemma check_same_entry (credentials : Credentials.t) (a a' : Account.t) :
  db !! Credentials.username credentials = Some a ->
  db' !! Credentials.username credentials = Some a' ->
  same_checked_entry credentials a a' ->
  kind_specific_check is_key_authorized self credentials
  = kind_specific_check is_key_authorized self' credentials.
Proof.
  intros E E' S. destruct credentials as [c|c|c|u]; simpl in *.
  - by rewrite (password_check self c a E), (password_check self' c a' E'), S.
  - by rewrite (ssh_check _ self c a E), (ssh_check _ self' c a' E'), S.
  - destruct (SSLCertificateCredentials.certificate c) as [certificate|] eqn:C.
    + by rewrite (ssl_check self c a certificate E C),
        (ssl_check self' c a' certificate E' C), S.
    + unfold _validateSSLCredentials. by rewrite C.
  - done.
Qed.

(** X8. Each kind of credentials is judged on its own entry. When two
    tables hold, under the user name, accounts whose [denied] flag has the
    same truth value, whose [internal_error] flag has the same truth
    value, and which agree on the entry that the check for this kind of
    credentials reads, the validator gives the same outcome on both: the
    other entries, and whether a flag is absent or present and false, make
    no difference. *)
Theorem outcome_depends_on_checked_entry
    (credentials : Credentials.t) (a a' : Account.t) :
  db !! Credentials.username credentials = Some a ->
  db' !! Credentials.username credentials = Some a' ->
  key_is_set (Account.denied a) = key_is_set (Account.denied a') ->
  key_is_set (Account.internal_error a) = key_is_set (Account.internal_error a') ->
  same_checked_entry credentials a a' ->
  validateCredentials is_key_authorized self credentials
  = validateCredentials is_key_authorized self' credentials.
Proof.
  intros E E' D I S. rewrite !validate_gate, E, E', D, I.
  by rewrite (check_same_entry credentials a a' E E' S).
Qed.

(** X7. The outcome for a user depends on that user's account alone: two
    tables that hold the same thing under the user name of the
    credentials (the same account, or nothing) give the same outcome,
    whatever else they contain. *)
Theorem outcome_depends_on_own_account (credentials : Credentials.t) :
  db !! Credentials.username credentials
    = db' !! Credentials.username credentials ->
  validateCredentials is_key_authorized self credentials
  = validateCredentials is_key_authorized self' credentials.
Proof.
  intros E. rewrite !validate_gate, <- E.
  destruct (db !! Credentials.username credentials) as [a|] eqn:Ea; [|done].
  rewrite (check_same_entry credentials a a Ea); [done|by rewrite <- E|].
  by destruct credentials.
Qed.

End Dependence.

(** ** The extension as shipped *)

Lemma USERS_lookup (u : string) :
  USERS !! u =
    if decide ("user1" = u) then Some user1
    else if decide ("user2" = u) then Some user2
    else if decide ("user3" = u) then Some user3
    else if decide ("user4" = u) then Some user4
    else None.
Proof. unfold USERS. by rewrite !lookup_insert, lookup_empty. Qed.

(** X9. With the table of the module, whatever the credentials and the
    answers of the host's key check are, the validator raises the denied
    fault for [user3] and the internal fault for [user4], and none of its
    own subscripts raises: the only other exception that can leave it is
    one raised by the read of the common name of a certificate presented
    for [user2], the one account that allows certificates. *)
Theorem shipped_table_faults
    (is_key_authorized : SSHKeyCredentials.t -> list string -> bool)
    (credentials : Credentials.t) :
  (Credentials.username credentials = "user3" ->
     validateCredentials is_key_authorized extension credentials
     = Raise (AccountDenied (Credentials.username credentials)))
  /\ (Credentials.username credentials = "user4" ->
        validateCredentials is_key_authorized extension credentials
        = Raise (InternalFault (Credentials.username credentials)))
  /\ (forall e : Exception,
        validateCredentials is_key_authorized extension credentials = Raise e ->
        (Credentials.username credentials = "user3"
           /\ e = AccountDenied (Credentials.username credentials))
        \/ (Credentials.username credentials = "user4"
              /\ e = InternalFault (Credentials.username credentials))
        \/ (Credentials.username credentials = "user2"
              /\ common_name_read_raises credentials user2 e)).
Proof.
  rewrite validate_gate.
  pose proof (kind_specific_check_raises is_key_authorized extension credentials)
    as Hraise.
  change (_users_database extension) with USERS in *.
  rewrite USERS_lookup in *.
  repeat case_decide; simpl.
  - split; [congruence|]. split; [congruence|].
    intros e He. destruct (Hraise user1 e eq_refl He) as [[_ Hn]|R].
    + destruct Hn. destruct credentials; simpl; by eauto.
    + destruct credentials; simpl in R; try done.
      by destruct R as (? & ? & _ & [=] & _).
  - split; [congruence|]. split; [congruence|].
    intros e He. destruct (Hraise user2 e eq_refl He) as [[_ Hn]|R].
    + destruct Hn. destruct credentials; simpl; by eauto.
    + right. right. by split.
  - split; [done|]. split; [congruence|].
    intros e [= <-]. left. by split.
  - split; [congruence|]. split; [done|].
    intros e [= <-]. right. left. by split.
  - split; [congruence|]. split; [congruence|]. done.
Qed.

(** X10. With the table of the module, the configuration lookup returns
    an avatar exactly for [user1] and [user2], and both properties of a
    returned avatar give a value: no avatar of the shipped table ends in
    a [KeyError]. *)
Theorem shipped_table_avatars (credentials : Credentials.t) :
  ((exists avatar,
      getAccountConfiguration extension credentials = Return (Some avatar))
   <-> Credentials.username credentials = "user1"
       \/ Credentials.username credentials = "user2")
  /\ (forall avatar : InMemoryExternalAvatar.t,
        getAccountConfiguration extension credentials = Return (Some avatar) ->
        InMemoryExternalAvatar.name avatar = Credentials.username credentials
        /\ (exists b, InMemoryExternalAvatar.create_home_folder avatar = Return b)
        /\ (exists path,
              InMemoryExternalAvatar.home_folder_path avatar = Return path)).
Proof.
  rewrite configuration_lookup_unfold.
  change (_users_database extension) with USERS.
  rewrite USERS_lookup.
  repeat case_decide; simpl.
  - split.
    + split; [by left|]. intros _. by eexists.
    + intros avatar [= <-]. split; [done|]. split; by eexists.
  - split.
    + split; [by right|]. intros _. by eexists.
    + intros avatar [= <-]. split; [done|]. split; by eexists.
  - split; [|done]. split; [by intros [? ?]|]. intros [?|?]; congruence.
  - split; [|done]. split; [by intros [? ?]|]. intros [?|?]; congruence.
  - split; [|done]. split; [by intros [? ?]|]. intros [?|?]; congruence.
Qed.

(** ** The further properties at concrete inputs *)

Lemma indeterminate_only_for_empty_password_at_user1 :
  validateCredentials listed_key extension
    (IPasswordCredentials (PasswordCredentials.mk "user1" EmptyString))
  = Return Indeterminate.
Proof.
  apply (indeterminate_only_for_empty_password listed_key extension).
  exists (PasswordCredentials.mk "user1" EmptyString), user1.
  split; [reflexivity|]. split; [reflexivity|].
  split; [vm_compute; reflexivity|]. split; reflexivity.
Defined.

Lemma KeyError_exactly_when_at_user3_reopened :
  validateCredentials listed_key reopened
    (ISSHKeyCredentials (SSHKeyCredentials.mk "user3" (Some SSH_PUB1)))
  = Raise (KeyError "ssh_keys").
Proof.
  apply (KeyError_exactly_when listed_key reopened).
  exists user3_reopened.
  split; [vm_compute; reflexivity|]. split; [reflexivity|].
  split; [reflexivity|]. right. left.
  exists (SSHKeyCredentials.mk "user3" (Some SSH_PUB1)).
  repeat split; reflexivity.
Defined.

Lemma accepted_exactly_when_at_user1 :
  validateCredentials listed_key extension
    (IPasswordCredentials (PasswordCredentials.mk "user1" "password1"))
  = Return Accepted.
Proof.
  apply (accepted_exactly_when listed_key extension).
  exists user1.
  split; [vm_compute; reflexivity|]. split; [reflexivity|].
  split; [reflexivity|]. left.
  exists (PasswordCredentials.mk "user1" "password1").
  split; [reflexivity|]. split; [discriminate|reflexivity].
Defined.

Lemma unknown_kind_only_rejected_at_user1 :
  exists verdict,
    validateCredentials listed_key extension (OtherCredentials "user1")
      = Return verdict
    /\ verdict = Rejected.
Proof.
  exists Rejected. split; [vm_compute; reflexivity|].
  apply (proj1 (unknown_kind_only_rejected listed_key extension "user1")).
  vm_compute; reflexivity.
Defined.

Lemma checks_without_gate_at_nobody :
  _validatePasswordCredentials extension
    (PasswordCredentials.mk "nobody" "secret")
  = Raise (KeyError "nobody").
Proof.
  destruct (checks_without_gate listed_key extension) as [H _].
  apply (H (PasswordCredentials.mk "nobody" "secret")).
  vm_compute; reflexivity.
Defined.

Lemma outcome_depends_on_checked_entry_at_user1 :
  validateCredentials listed_key extension
    (IPasswordCredentials (PasswordCredentials.mk "user1" "password1"))
  = validateCredentials listed_key
      (InMemoryExtension.__init__
         (<["user1" := Account.with_ssh_keys [] user1]> USERS))
      (IPasswordCredentials (PasswordCredentials.mk "user1" "password1")).
Proof.
  apply (outcome_depends_on_checked_entry listed_key extension
           (InMemoryExtension.__init__
              (<["user1" := Account.with_ssh_keys [] user1]> USERS))
           (IPasswordCredentials (PasswordCredentials.mk "user1" "password1"))
           user1 (Account.with_ssh_keys [] user1)).
  - vm_compute; reflexivity.
  - vm_compute; reflexivity.
  - reflexivity.
  - reflexivity.
  - reflexivity.
Defined.

Lemma outcome_depends_on_own_account_at_user1 :
  validateCredentials listed_key extension
    (ISSHKeyCredentials (SSHKeyCredentials.mk "user1" (Some SSH_PUB1)))
  = validateCredentials listed_key reopened
      (ISSHKeyCredentials (SSHKeyCredentials.mk "user1" (Some SSH_PUB1))).
Proof.
  apply (outcome_depends_on_own_account listed_key extension reopened).
  vm_compute; reflexivity.
Defined.

Lemma shipped_table_faults_at_user3 :
  validateCredentials listed_key extension
    (ISSLCertificateCredentials
       (SSLCertificateCredentials.mk "user3" (Some (certificate_of "user3"))))
  = Raise (AccountDenied "user3").
Proof.
  destruct (shipped_table_faults listed_key
              (ISSLCertificateCredentials
                 (SSLCertificateCredentials.mk "user3"
                    (Some (certificate_of "user3")))))
    as [H _].
  apply H. reflexivity.
Defined.

Lemma shipped_table_avatars_at_user2 :
  exists avatar,
    getAccountConfiguration extension (OtherCredentials "user2")
    = Return (Some avatar).
Proof.
  destruct (shipped_table_avatars (OtherCredentials "user2")) as [[_ H] _].
  apply H. right. reflexivity.
Defined.

Lemma configuration_lookup_never_raises_at_user1 :
  getAccountConfiguration extension (OtherCredentials "user1")
  = Return (Some (InMemoryExternalAvatar.__init__ "user1"
                    (Configuration.mk (Some false) (Some "/tmp")))).
Proof.
  destruct (configuration_lookup_never_raises extension (OtherCredentials "user1"))
    as [_ H].
  apply H. exists user1, (Configuration.mk (Some false) (Some "/tmp")).
  split; [vm_compute; reflexivity|]. split; reflexivity.
Defined.
